(** * QFT-Plus Viewer: the result classifier and the numeric display formatter

    A shallow embedding of [calculate_comment] and
    [format_number_with_decimals] of [qft_viewer_final.py], together with
    the Python built-ins they call ([str.strip], [str.replace],
    [str.upper], [float], [int], [str] and the [f] format specifier).

    Conventions.
    - A Python [str] is a Rocq [string]; its 8-bit characters are read as
      the code points U+0000..U+00FF.
    - A Python [float] is an IEEE 754 binary64 value, a [spec_float] with
      [prec = 53] and [emax = 1024].
    - A Python [int] is a [Z].
    - A call that may raise returns a [result]; [try]/[except] is
      [try_except].
    - Limits of the interpreter are left out: memory, and the cap on the
      number of digits that [int] accepts in a [str]. *)

From Stdlib Require Import ZArith String Ascii List Bool Lia.
From Stdlib Require Import DecimalString.
From Stdlib Require Import Floats.SpecFloat.
From stdpp Require Import gmap strings.

Local Open Scope string_scope.
Local Open Scope Z_scope.

(** ** Exceptions *)

Module Py.

Inductive exn : Type := ValueError | TypeError | OverflowError.

Definition exn_eqb (a b : exn) : bool :=
  match a, b with
  | ValueError, ValueError | TypeError, TypeError
  | OverflowError, OverflowError => true
  | _, _ => false
  end.

Inductive result (A : Type) : Type :=
  | Ret (a : A)
  | Raise (e : exn).
Arguments Ret {A} a.
Arguments Raise {A} e.

Definition bind {A B : Type} (m : result A) (k : A -> result B) : result B :=
  match m with
  | Ret a => k a
  | Raise e => Raise e
  end.

(** [try: body except (caught): handler]; an exception outside [caught]
    propagates. *)
Definition try_except {A : Type} (caught : list exn) (body : result A)
    (handler : exn -> result A) : result A :=
  match body with
  | Ret a => Ret a
  | Raise e => if existsb (exn_eqb e) caught then handler e else Raise e
  end.

Definition raises {A : Type} (m : result A) : Prop := exists e, m = Raise e.

(** ** Strings *)

Definition chars (s : string) : list ascii := list_ascii_of_string s.
Definition str_of (l : list ascii) : string := string_of_list_ascii l.

Definition code (c : ascii) : Z := Z.of_N (N_of_ascii c).

(** [str.isspace] on one code point below 256: TAB..CR, FS..US, SPACE,
    NEL (U+0085) and NBSP (U+00A0). *)
Definition isspace (c : ascii) : bool :=
  let n := code c in
  ((9 <=? n) && (n <=? 13)) || ((28 <=? n) && (n <=? 32))
  || (n =? 133) || (n =? 160).

Fixpoint lstrip_list (l : list ascii) : list ascii :=
  match l with
  | c :: l' => if isspace c then lstrip_list l' else l
  | [] => []
  end.

Definition strip_list (l : list ascii) : list ascii :=
  rev (lstrip_list (rev (lstrip_list l))).

(** [s.strip()] *)
Definition strip (s : string) : string := str_of (strip_list (chars s)).

(** [s.replace(c, '')] for a one-character [c]. *)
Definition remove_char (c : ascii) (s : string) : string :=
  str_of (List.filter (fun x => negb (Ascii.eqb x c)) (chars s)).

(** [c in s] for a one-character [c]. *)
Definition contains (c : ascii) (s : string) : bool :=
  existsb (Ascii.eqb c) (chars s).

(** [s] has white space only (or nothing at all). *)
Definition blank (s : string) : bool := forallb isspace (chars s).

(** Neither [>] nor [<]. *)
Definition plain (c : ascii) : bool :=
  negb (Ascii.eqb c ">") && negb (Ascii.eqb c "<").

(** [s.upper()].  Lower-case letters of U+0000..U+00FF; [U+00DF] becomes
    ["SS"].  The upper-case forms of U+00B5 and U+00FF lie beyond U+00FF and
    the two characters are left in place: the program only compares the
    result with ASCII literals, which no non-ASCII stand-in can equal. *)
Definition upper_char (c : ascii) : list ascii :=
  let n := code c in
  if ((97 <=? n) && (n <=? 122))
     || ((224 <=? n) && (n <=? 254) && negb (n =? 247))
  then [ascii_of_N (Z.to_N (n - 32))]
  else if n =? 223 then ["S"%char; "S"%char]
  else [c].

Definition upper (s : string) : string :=
  str_of (flat_map upper_char (chars s)).

(** ** Floats: IEEE 754 binary64 *)

Definition float : Type := spec_float.
Definition prec : Z := 53.
Definition emax : Z := 1024.

(** [x <= y] and [x < y]; both are [False] when an operand is NaN. *)
Definition fle (x y : float) : bool := SFleb x y.
Definition flt (x y : float) : bool := SFltb x y.

(** The double nearest to [(-1)^s * m * 10^e] for [0 <= m], ties to even;
    overflow gives an infinity, underflow a signed zero. *)
Definition float_of_decimal (s : bool) (m e : Z) : float :=
  if m =? 0 then S754_zero s
  else if 0 <=? e then
    binary_normalize prec emax (if s then - (m * 10 ^ e) else m * 10 ^ e) 0 s
  else
    let '(q, e', l) := SFdiv_core_binary prec emax m 0 (10 ^ (- e)) 0 in
    binary_round_aux prec emax s q e' l.

Definition is_digit (c : ascii) : bool := (48 <=? code c) && (code c <=? 57).

Definition int_of_digits (ds : list ascii) : Z :=
  fold_left (fun a c => 10 * a + (code c - 48)) ds 0.

Fixpoint span_digits (l : list ascii) : list ascii * list ascii :=
  match l with
  | c :: r =>
      if is_digit c then let (ds, rest) := span_digits r in (c :: ds, rest)
      else ([], l)
  | [] => ([], [])
  end.

Definition take_sign (l : list ascii) : bool * list ascii :=
  match l with
  | c :: r =>
      if Ascii.eqb c "-" then (true, r)
      else if Ascii.eqb c "+" then (false, r)
      else (false, l)
  | [] => (false, [])
  end.

(** The tail of a decimal literal: nothing, or [e]/[E], an optional sign and
    at least one digit. *)
Definition parse_exponent (l : list ascii) : option Z :=
  match l with
  | [] => Some 0
  | c :: r =>
      if Ascii.eqb c "e" || Ascii.eqb c "E" then
        let (sg, r') := take_sign r in
        match span_digits r' with
        | ((_ :: _) as ds, []) =>
            Some (if sg then - int_of_digits ds else int_of_digits ds)
        | _ => None
        end
      else None
  end.

(** A decimal literal that spans the whole of [l]:
    sign, digits, optional point and digits (one digit at least), exponent. *)
Definition strtod (l : list ascii) : option float :=
  let (sg, l1) := take_sign l in
  let (ip, l2) := span_digits l1 in
  let (fp, l3) :=
    match l2 with
    | c :: r => if Ascii.eqb c "." then span_digits r else ([], l2)
    | [] => ([], l2)
    end in
  match (ip ++ fp)%list with
  | [] => None
  | ds =>
      match parse_exponent l3 with
      | Some x =>
          Some (float_of_decimal sg (int_of_digits ds) (x - Z.of_nat (length fp)))
      | None => None
      end
  end.

Definition ascii_lower (c : ascii) : ascii :=
  if (65 <=? code c) && (code c <=? 90)
  then ascii_of_N (Z.to_N (code c + 32)) else c.

(** [inf], [infinity] and [nan] in any letter case, with an optional sign. *)
Definition parse_inf_or_nan (l : list ascii) : option float :=
  let (sg, r) := take_sign l in
  let w := str_of (map ascii_lower r) in
  if String.eqb w "inf" || String.eqb w "infinity" then Some (S754_infinity sg)
  else if String.eqb w "nan" then Some S754_nan
  else None.

(** The C locale's [isspace]: TAB..CR and SPACE. *)
Definition c_isspace (c : ascii) : bool :=
  ((9 <=? code c) && (code c <=? 13)) || (code c =? 32).

Fixpoint lstrip_c (l : list ascii) : list ascii :=
  match l with
  | c :: l' => if c_isspace c then lstrip_c l' else l
  | [] => []
  end.

(** Before a number is read, a non-ASCII space becomes an ASCII space. *)
Definition space_to_ascii (c : ascii) : ascii :=
  if (code c =? 133) || (code c =? 160) then " "%char else c.

(** Underscores in a float literal: each one directly after a digit and
    directly before a digit.  [prev] is the character just read. *)
Fixpoint check_underscores (prev : ascii) (l : list ascii) : option (list ascii) :=
  match l with
  | [] => if Ascii.eqb prev "_" then None else Some []
  | c :: r =>
      if Ascii.eqb c "_" then
        if is_digit prev then check_underscores c r else None
      else if Ascii.eqb prev "_" && negb (is_digit c) then None
      else option_map (cons c) (check_underscores c r)
  end.

Definition drop_underscores (l : list ascii) : option (list ascii) :=
  if existsb (Ascii.eqb "_") l then check_underscores zero l else Some l.

Definition float_of_chars (l : list ascii) : option float :=
  match drop_underscores (map space_to_ascii l) with
  | None => None
  | Some l0 =>
      match lstrip_c l0 with
      | [] => None
      | l1 =>
          let l2 := rev (lstrip_c (rev l1)) in
          match strtod l2 with
          | Some x => Some x
          | None => parse_inf_or_nan l2
          end
      end
  end.

(** [float(s)] for a [str] [s]. *)
Definition float_of_str (s : string) : result float :=
  match float_of_chars (chars s) with
  | Some x => Ret x
  | None => Raise ValueError
  end.

(** ** Integers *)

(** The digits of an [int] literal: digits and single underscores, a digit
    first and last. *)
Fixpoint span_int_body (l : list ascii) : list ascii * list ascii :=
  match l with
  | c :: r =>
      if is_digit c || Ascii.eqb c "_" then
        let (b, rest) := span_int_body r in (c :: b, rest)
      else ([], l)
  | [] => ([], [])
  end.

Fixpoint int_body_ok (prev : ascii) (l : list ascii) : bool :=
  match l with
  | [] => negb (Ascii.eqb prev "_")
  | c :: r =>
      if Ascii.eqb c "_" then is_digit prev && int_body_ok c r
      else int_body_ok c r
  end.

Definition int_of_chars (l : list ascii) : option Z :=
  let (sg, l1) := take_sign (lstrip_c (map space_to_ascii l)) in
  let (body, rest) := span_int_body l1 in
  if int_body_ok "_" body && forallb c_isspace rest then
    let v := int_of_digits (List.filter is_digit body) in
    Some (if sg then - v else v)
  else None.

(** [int(s)] for a [str] [s] (base ten). *)
Definition int_of_str (s : string) : result Z :=
  match int_of_chars (chars s) with
  | Some z => Ret z
  | None => Raise ValueError
  end.

(** [int(x)] for a [float] [x]: truncation towards zero. *)
Definition int_of_float (x : float) : result Z :=
  match x with
  | S754_nan => Raise ValueError
  | S754_infinity _ => Raise OverflowError
  | S754_zero _ => Ret 0
  | S754_finite s m e =>
      let a := if 0 <=? e then Zpos m * 2 ^ e else Zpos m / 2 ^ (- e) in
      Ret (if s then - a else a)
  end.

(** [x == i] for a [float] [x] and an [int] [i]: the exact values are
    compared. *)
Definition float_eq_int (x : float) (i : Z) : bool :=
  match x with
  | S754_zero _ => i =? 0
  | S754_finite s m e =>
      let v := if s then Zneg m else Zpos m in
      if 0 <=? e then v * 2 ^ e =? i else v =? i * 2 ^ (- e)
  | _ => false
  end.

Definition is_inf (x : float) : bool :=
  match x with
  | S754_infinity _ => true
  | _ => false
  end.

Definition is_nan (x : float) : bool :=
  match x with
  | S754_nan => true
  | _ => false
  end.

(** [x] is finite and its value is a whole number. *)
Definition is_whole (x : float) : bool :=
  match x with
  | S754_zero _ => true
  | S754_finite _ m e => (0 <=? e) || (Zpos m mod 2 ^ (- e) =? 0)
  | _ => false
  end.

(** The value of [int(x)] where it has one. *)
Definition trunc (x : float) : Z :=
  match int_of_float x with
  | Ret i => i
  | Raise _ => 0
  end.

(** [str(i)] for an [int] [i]. *)
Definition str_of_int (i : Z) : string := NilZero.string_of_int (Z.to_int i).

(** ** The [f] presentation type *)

(** [x * 2^e] rounded to an integer, ties to even, for [0 <= x]. *)
Definition round_half_even (x e : Z) : Z :=
  if 0 <=? e then x * 2 ^ e
  else
    let d := 2 ^ (- e) in
    let q := x / d in
    let r := x mod d in
    match 2 * r ?= d with
    | Lt => q
    | Gt => q + 1
    | Eq => if Z.even q then q else q + 1
    end.

(** The integer [n >= 0] written with its last [p] digits after the point. *)
Definition fixed (n : Z) (p : nat) : string :=
  let ds := chars (NilZero.string_of_uint (N.to_uint (Z.to_N n))) in
  let ds := (repeat "0"%char (S p - length ds) ++ ds)%list in
  let k := (length ds - p)%nat in
  match p with
  | O => str_of ds
  | _ => str_of (take k ds ++ "."%char :: drop k ds)%list
  end.

Definition sign_str (s : bool) : string := if s then "-" else "".

Definition INT_MAX : Z := 2147483647.

(** [format(x, ".<p>f")], the value of [f"{x:.{p}f}"] for an [int] [p]:
    a negative [p] is not a precision and one above [INT_MAX] is refused. *)
Definition format_f (x : float) (p : Z) : result string :=
  if (p <? 0) || (INT_MAX <? p) then Raise ValueError
  else
    Ret match x with
        | S754_nan => "nan"
        | S754_infinity s => sign_str s ++ "inf"
        | S754_zero s => sign_str s ++ fixed 0 (Z.to_nat p)
        | S754_finite s m e =>
            sign_str s ++ fixed (round_half_even (Zpos m * 10 ^ p) e) (Z.to_nat p)
        end.

(** ** Values held by a record or a setting *)

Inductive pyval : Type :=
  | PyStr (s : string)
  | PyNone.

(** [str(v)], [int(v)] and [v == s] for a [str] literal [s]. *)
Definition py_str (v : pyval) : string :=
  match v with
  | PyStr s => s
  | PyNone => "None"
  end.

Definition py_int (v : pyval) : result Z :=
  match v with
  | PyStr s => int_of_str s
  | PyNone => Raise TypeError
  end.

Definition py_eq_str (v : pyval) (s : string) : bool :=
  match v with
  | PyStr t => String.eqb t s
  | PyNone => false
  end.

(** [d.get(key, dflt)] *)
Definition dict_get (d : gmap string pyval) (key : string) (dflt : pyval) : pyval :=
  default dflt (d !! key).

(** A float literal of the program text. *)
Definition literal (s : string) : float :=
  match float_of_str s with
  | Ret x => x
  | Raise _ => S754_nan
  end.

End Py.

Declare Scope py_scope.
Delimit Scope py_scope with py.
Notation "'let*' x ':=' m 'in' k" := (Py.bind m (fun x => k))
  (at level 10, x name, m at level 100, k at level 200) : py_scope.

(** ** The two functions of [qft_viewer_final.py] *)

Module QFT.
Import Py.
Local Open Scope py_scope.

Definition f_0_0 : float := Eval vm_compute in literal "0.0".
Definition f_0_35 : float := Eval vm_compute in literal "0.35".
Definition f_0_5 : float := Eval vm_compute in literal "0.5".
Definition f_1_0 : float := Eval vm_compute in literal "1.0".
Definition f_8_0 : float := Eval vm_compute in literal "8.0".

(** [format_number_with_decimals(value_str, decimals_setting)] *)
Definition format_number_with_decimals (value_str decimals_setting : pyval)
    : result string :=
  let value_str := py_str value_str in
  let value_str := strip value_str in
  if String.eqb value_str "" || String.eqb value_str " " then Ret " "
  else if contains ">" value_str || contains "<" value_str then Ret value_str
  else
    try_except [ValueError; TypeError]
      (let* num := float_of_str value_str in
       if py_eq_str decimals_setting "default" then
         let* i := int_of_float num in
         if float_eq_int num i then
           let* j := int_of_float num in Ret (str_of_int j)
         else Ret value_str
       else
         try_except [ValueError]
           (let* decimals := py_int decimals_setting in
            format_f num decimals)
           (fun _ => Ret value_str))
      (fun _ => Ret value_str).

(** [float(t) if t else 0.0] for
    [t = str(row_dict.get(key, '0')).replace('>', '').replace('<', '').strip()];
    the source writes this pair of lines once for each of its four fields. *)
Definition field_text (row_dict : gmap string pyval) (key : string) : string :=
  strip (remove_char "<" (remove_char ">"
    (py_str (dict_get row_dict key (PyStr "0"))))).

Definition field_float (row_dict : gmap string pyval) (key : string)
    : result float :=
  let t := field_text row_dict key in
  if String.eqb t "" then Ret f_0_0 else float_of_str t.

(** The branches of [calculate_comment] below its four conversions. *)
Definition comment_of (qft_result : string) (nil_val tb1_nil tb2_nil mit_nil : float)
    : string :=
  let comment := "" in
  if String.eqb qft_result "POS" || String.eqb qft_result "POS*" then
    if fle f_1_0 tb1_nil || fle f_1_0 tb2_nil then ""
    else
      let is_wp_tb1 := fle f_0_35 tb1_nil && flt tb1_nil f_1_0 in
      let is_wp_tb2 := fle f_0_35 tb2_nil && flt tb2_nil f_1_0 in
      if is_wp_tb1 && is_wp_tb2 then "WP (Both)"
      else if is_wp_tb1 then "WP (TB1)"
      else if is_wp_tb2 then "WP (TB2)"
      else comment
  else if String.eqb qft_result "IND" then
    if flt f_8_0 nil_val then "High Nil"
    else if flt mit_nil f_0_5 then "Low Mit"
    else comment
  else comment.

Definition qft_result_of (row_dict : gmap string pyval) : string :=
  upper (py_str (dict_get row_dict "qft_result" (PyStr ""))).

(** [calculate_comment(row_dict)].  The handler also prints a line naming the
    record's barcode; the returned comment does not depend on it. *)
Definition calculate_comment (row_dict : gmap string pyval) : result string :=
  let qft_result := qft_result_of row_dict in
  try_except [ValueError; TypeError]
    (let* nil_val := field_float row_dict "nil_result" in
     let* tb1_nil := field_float row_dict "tb1_nil" in
     let* tb2_nil := field_float row_dict "tb2_nil" in
     let* mit_nil := field_float row_dict "mit_nil" in
     Ret (comment_of qft_result nil_val tb1_nil tb2_nil mit_nil))
    (fun _ => Ret "Error").

(** The keys of the four numeric fields that [calculate_comment] reads. *)
Definition numeric_fields : list string :=
  ["nil_result"; "tb1_nil"; "tb2_nil"; "mit_nil"].

End QFT.

(** ** Readings of the specification, kept apart from the code *)

Module Spec.
Import Py QFT.

(** "Non-numeric content degrades gracefully to a numeric value of 0.0":
    a field that does not convert counts as [0.0] and the classification goes
    on. *)
Definition graceful_float (row_dict : gmap string pyval) (key : string) : float :=
  match field_float row_dict key with
  | Ret x => x
  | Raise _ => f_0_0
  end.

Definition graceful_comment (row_dict : gmap string pyval) : string :=
  comment_of (qft_result_of row_dict)
    (graceful_float row_dict "nil_result") (graceful_float row_dict "tb1_nil")
    (graceful_float row_dict "tb2_nil") (graceful_float row_dict "mit_nil").

(** "Strip any leading [>] or [<] and surrounding whitespace; if the remaining
    string is empty, treat the numeric value as 0.0; otherwise parse as a
    decimal number." *)
Fixpoint lstrip_comparison (l : list ascii) : list ascii :=
  match l with
  | c :: r => if plain c then l else lstrip_comparison r
  | [] => []
  end.

Definition leading_text (s : string) : string :=
  strip (str_of (lstrip_comparison (chars (strip s)))).

Definition leading_float (row_dict : gmap string pyval) (key : string)
    : result float :=
  let t := leading_text (py_str (dict_get row_dict key (PyStr "0"))) in
  if String.eqb t "" then Ret f_0_0 else float_of_str t.

End Spec.

(** * Properties of the built-ins *)

Module PyFacts.
Import Py.

Lemma chars_str_of (l : list ascii) : chars (str_of l) = l.
Proof. apply list_ascii_of_string_of_list_ascii. Qed.

Lemma str_of_chars (s : string) : str_of (chars s) = s.
Proof. apply string_of_list_ascii_of_string. Qed.

Lemma chars_app (u v : string) : chars (u ++ v) = (chars u ++ chars v)%list.
Proof. induction u as [|c u IH]; simpl; [reflexivity | now rewrite <- IH]. Qed.

Lemma chars_strip (s : string) : chars (strip s) = strip_list (chars s).
Proof. apply chars_str_of. Qed.

(** *** [strip] *)

Lemma lstrip_list_incl (c : ascii) (l : list ascii) :
  In c (lstrip_list l) -> In c l.
Proof.
  induction l as [|a l IH]; simpl; [tauto|].
  destruct (isspace a); simpl; tauto.
Qed.

Lemma lstrip_list_keeps (c : ascii) (l : list ascii) :
  isspace c = false -> In c l -> In c (lstrip_list l).
Proof.
  intros Hc. induction l as [|a l IH]; simpl; [tauto|].
  destruct (isspace a) eqn:Ha; simpl; [|tauto].
  intros [->|H]; [congruence | auto].
Qed.

Lemma lstrip_list_head (l : list ascii) (c : ascii) (r : list ascii) :
  lstrip_list l = c :: r -> isspace c = false.
Proof.
  induction l as [|a l IH]; simpl; [discriminate|].
  destruct (isspace a) eqn:Ha; [exact IH|].
  intros H; injection H as -> _. exact Ha.
Qed.

Lemma lstrip_list_blank (l : list ascii) :
  lstrip_list l = [] <-> forallb isspace l = true.
Proof.
  induction l as [|a l IH]; simpl; [tauto|].
  destruct (isspace a); simpl; [exact IH|].
  split; discriminate.
Qed.

Lemma strip_list_incl (c : ascii) (l : list ascii) :
  In c (strip_list l) -> In c l.
Proof.
  unfold strip_list. intros H.
  apply lstrip_list_incl. apply in_rev.
  apply lstrip_list_incl. now apply in_rev.
Qed.

Lemma strip_list_keeps (c : ascii) (l : list ascii) :
  isspace c = false -> In c l -> In c (strip_list l).
Proof.
  unfold strip_list. intros Hc H.
  apply -> in_rev. apply lstrip_list_keeps; [assumption|].
  apply -> in_rev. now apply lstrip_list_keeps.
Qed.

Lemma contains_In (c : ascii) (s : string) :
  contains c s = true <-> In c (chars s).
Proof.
  unfold contains. rewrite existsb_exists. split.
  - intros (x & Hx & E). apply Ascii.eqb_eq in E. now subst.
  - intros H. exists c. split; [assumption | apply Ascii.eqb_refl].
Qed.

(** A character that is not white space is in [s.strip()] exactly when it is
    in [s]. *)
Lemma contains_strip (c : ascii) (s : string) :
  isspace c = false -> contains c (strip s) = contains c s.
Proof.
  intros Hc. apply eq_true_iff_eq.
  rewrite !contains_In, chars_strip. split.
  - apply strip_list_incl.
  - now apply strip_list_keeps.
Qed.

Lemma strip_blank (s : string) : strip s = "" <-> blank s = true.
Proof.
  unfold blank, strip, strip_list. split.
  - intros H. apply (f_equal chars) in H. rewrite chars_str_of in H.
    simpl in H. apply (f_equal (@rev ascii)) in H.
    rewrite rev_involutive in H. simpl in H.
    destruct (lstrip_list (chars s)) as [|a l] eqn:E.
    + now apply lstrip_list_blank.
    + exfalso. apply lstrip_list_head in E.
      assert (Hall : forallb isspace (rev (a :: l)) = true)
        by now apply lstrip_list_blank.
      rewrite forallb_forall in Hall.
      specialize (Hall a). rewrite <- in_rev in Hall.
      rewrite Hall in E; [discriminate | now left].
  - intros H. apply lstrip_list_blank in H. now rewrite H.
Qed.

Lemma strip_not_space (s : string) : strip s <> " ".
Proof.
  unfold strip, strip_list. intros H.
  apply (f_equal chars) in H. rewrite chars_str_of in H. simpl in H.
  apply (f_equal (@rev ascii)) in H. rewrite rev_involutive in H. simpl in H.
  apply lstrip_list_head in H. discriminate.
Qed.

Lemma lstrip_list_split (l : list ascii) :
  exists ws, l = (ws ++ lstrip_list l)%list.
Proof.
  induction l as [|a l [ws IH]]; simpl; [now exists []|].
  destruct (isspace a).
  - exists (a :: ws). simpl. now rewrite <- IH.
  - now exists [].
Qed.

Lemma lstrip_list_fix (c : ascii) (l : list ascii) :
  isspace c = false -> lstrip_list (c :: l) = c :: l.
Proof. intros H. simpl. now rewrite H. Qed.

Lemma lstrip_list_idem (l : list ascii) :
  lstrip_list (lstrip_list l) = lstrip_list l.
Proof.
  destruct (lstrip_list l) as [|c r] eqn:E; [reflexivity|].
  apply lstrip_list_fix. eapply lstrip_list_head; eauto.
Qed.

Lemma strip_list_idem (l : list ascii) :
  strip_list (strip_list l) = strip_list l.
Proof.
  unfold strip_list.
  set (A := lstrip_list l).
  destruct (lstrip_list_split (rev A)) as [ws Hws].
  set (B := lstrip_list (rev A)) in *.
  assert (HA : A = (rev B ++ rev ws)%list).
  { rewrite <- rev_app_distr, <- Hws. now rewrite rev_involutive. }
  assert (HB : lstrip_list (rev B) = rev B).
  { destruct (rev B) as [|c r] eqn:E; [reflexivity|].
    apply lstrip_list_fix. simpl in HA.
    eapply lstrip_list_head. exact HA. }
  rewrite HB, rev_involutive. unfold B. now rewrite lstrip_list_idem.
Qed.

Lemma strip_idem (s : string) : strip (strip s) = strip s.
Proof.
  unfold strip at 1. rewrite chars_strip, strip_list_idem. reflexivity.
Qed.

(** *** [float] *)

Ltac each_char c :=
  destruct c as [[] [] [] [] [] [] [] []]; vm_compute;
  try reflexivity; try discriminate; try tauto.

Lemma is_digit_plain (c : ascii) : is_digit c = true -> plain c = true.
Proof. each_char c. Qed.

Lemma c_isspace_plain (c : ascii) : c_isspace c = true -> plain c = true.
Proof. each_char c. Qed.

Lemma space_to_ascii_plain (c : ascii) :
  plain (space_to_ascii c) = true -> plain c = true.
Proof. each_char c. Qed.

Lemma letters_plain (c : ascii) :
  existsb (Ascii.eqb (ascii_lower c)) (chars "infinityan") = true ->
  plain c = true.
Proof. each_char c. Qed.

Lemma span_digits_spec (l ds rest : list ascii) :
  span_digits l = (ds, rest) ->
  l = (ds ++ rest)%list /\ forallb is_digit ds = true.
Proof.
  revert ds rest. induction l as [|c l IH]; simpl; intros ds rest H.
  - injection H as <- <-. split; reflexivity.
  - destruct (is_digit c) eqn:Hc.
    + destruct (span_digits l) as [ds' rest'] eqn:E.
      injection H as <- <-. destruct (IH _ _ eq_refl) as [-> Hd].
      split; [reflexivity | simpl; now rewrite Hc].
    + injection H as <- <-. split; reflexivity.
Qed.

Lemma digits_plain (ds : list ascii) :
  forallb is_digit ds = true -> forallb plain ds = true.
Proof.
  rewrite !forallb_forall. intros H c Hc. apply is_digit_plain. auto.
Qed.

Lemma take_sign_plain (l r : list ascii) (sg : bool) :
  take_sign l = (sg, r) -> forallb plain r = true -> forallb plain l = true.
Proof.
  destruct l as [|c l]; simpl; [intros; reflexivity|].
  destruct (Ascii.eqb c "-") eqn:E1; [|destruct (Ascii.eqb c "+") eqn:E2].
  - apply Ascii.eqb_eq in E1 as ->. intros H; injection H as _ <-.
    now intros ->.
  - apply Ascii.eqb_eq in E2 as ->. intros H; injection H as _ <-.
    now intros ->.
  - intros H; injection H as _ <-. trivial.
Qed.

Lemma parse_exponent_plain (l : list ascii) (x : Z) :
  parse_exponent l = Some x -> forallb plain l = true.
Proof.
  destruct l as [|c l]; simpl; [reflexivity|].
  destruct (Ascii.eqb c "e" || Ascii.eqb c "E") eqn:Hc; [|discriminate].
  destruct (take_sign l) as [sg r] eqn:Hs.
  destruct (span_digits r) as [ds rest] eqn:Hd.
  destruct ds as [|d ds]; [discriminate|].
  destruct rest; [|discriminate]. intros _.
  apply span_digits_spec in Hd as [-> Hd]. rewrite app_nil_r in Hs.
  apply andb_true_intro; split.
  - apply orb_true_iff in Hc as [E|E]; apply Ascii.eqb_eq in E; now subst.
  - eapply take_sign_plain; [exact Hs | now apply digits_plain].
Qed.

Lemma strtod_plain (l : list ascii) (x : float) :
  strtod l = Some x -> forallb plain l = true.
Proof.
  unfold strtod.
  destruct (take_sign l) as [sg l1] eqn:Hs.
  destruct (span_digits l1) as [ip l2] eqn:Hi.
  apply span_digits_spec in Hi as [-> Hip].
  intros H. eapply take_sign_plain; [exact Hs|].
  rewrite forallb_app, (digits_plain _ Hip). simpl.
  destruct l2 as [|c r].
  - reflexivity.
  - destruct (Ascii.eqb c ".") eqn:Hc.
    + apply Ascii.eqb_eq in Hc as ->.
      destruct (span_digits r) as [fp l3] eqn:Hf.
      apply span_digits_spec in Hf as [-> Hfp].
      destruct (ip ++ fp)%list; [discriminate|].
      destruct (parse_exponent l3) eqn:He; [|discriminate].
      simpl. rewrite forallb_app, (digits_plain _ Hfp).
      now apply parse_exponent_plain in He.
    + destruct (ip ++ [])%list; [discriminate|].
      destruct (parse_exponent (c :: r)) eqn:He; [|discriminate].
      now apply parse_exponent_plain in He.
Qed.

Lemma parse_inf_or_nan_plain (l : list ascii) (x : float) :
  parse_inf_or_nan l = Some x -> forallb plain l = true.
Proof.
  unfold parse_inf_or_nan.
  destruct (take_sign l) as [sg r] eqn:Hs. intros H.
  eapply take_sign_plain; [exact Hs|].
  assert (Hw : In (str_of (map ascii_lower r)) ["inf"; "infinity"; "nan"]).
  { destruct (String.eqb_spec (str_of (map ascii_lower r)) "inf") as [->|];
      [now left|].
    destruct (String.eqb_spec (str_of (map ascii_lower r)) "infinity") as [->|];
      [right; now left|].
    destruct (String.eqb_spec (str_of (map ascii_lower r)) "nan") as [->|];
      [right; right; now left | discriminate]. }
  apply forallb_forall. intros c Hc. apply letters_plain.
  apply existsb_exists. exists (ascii_lower c).
  split; [|apply Ascii.eqb_refl].
  apply (in_map ascii_lower) in Hc.
  rewrite <- (chars_str_of (map ascii_lower r)) in Hc.
  destruct Hw as [E|[E|[E|[]]]]; rewrite <- E in Hc; simpl in Hc; simpl;
    tauto.
Qed.

Lemma lstrip_c_plain (l : list ascii) :
  forallb plain (lstrip_c l) = true -> forallb plain l = true.
Proof.
  induction l as [|c l IH]; simpl; [trivial|].
  destruct (c_isspace c) eqn:Hc; [|trivial].
  intros H. now rewrite (c_isspace_plain _ Hc), IH.
Qed.

Lemma forallb_rev (f : ascii -> bool) (l : list ascii) :
  forallb f (rev l) = forallb f l.
Proof.
  apply eq_true_iff_eq. rewrite !forallb_forall.
  split; intros H c Hc; apply H; now apply in_rev in Hc || apply -> in_rev.
Qed.

Lemma check_underscores_plain (l l0 : list ascii) (prev : ascii) :
  check_underscores prev l = Some l0 ->
  forallb plain l0 = true -> forallb plain l = true.
Proof.
  revert prev l0. induction l as [|c l IH]; simpl; intros prev l0; [trivial|].
  destruct (Ascii.eqb c "_") eqn:Hc.
  - apply Ascii.eqb_eq in Hc as ->.
    destruct (is_digit prev); [|discriminate]. simpl. apply IH.
  - destruct (Ascii.eqb prev "_" && negb (is_digit c)); [discriminate|].
    destruct (check_underscores c l) as [l'|] eqn:E; [|discriminate].
    simpl. intros H; injection H as <-. simpl.
    intros H. apply andb_prop in H as [-> H]. simpl. eapply IH; eauto.
Qed.

Lemma float_of_chars_plain (l : list ascii) (x : float) :
  float_of_chars l = Some x -> forallb plain l = true.
Proof.
  unfold float_of_chars.
  destruct (drop_underscores (map space_to_ascii l)) as [l0|] eqn:Hu;
    [|discriminate].
  intros H.
  assert (H2 : forallb plain l0 = true).
  { apply lstrip_c_plain.
    destruct (lstrip_c l0) as [|a l1] eqn:E; [reflexivity|].
    rewrite <- forallb_rev. apply lstrip_c_plain. rewrite <- forallb_rev.
    destruct (strtod (rev (lstrip_c (rev (a :: l1))))) eqn:Es.
    - now apply strtod_plain in Es.
    - now apply parse_inf_or_nan_plain in H. }
  assert (H1 : forallb plain (map space_to_ascii l) = true).
  { unfold drop_underscores in Hu.
    destruct (existsb (Ascii.eqb "_") (map space_to_ascii l)).
    - eapply check_underscores_plain; eauto.
    - now injection Hu as ->. }
  rewrite forallb_forall in H1. apply forallb_forall. intros c Hc.
  apply space_to_ascii_plain. apply H1. now apply in_map.
Qed.

(** [float] raises nothing but [ValueError]. *)
Lemma float_of_str_cases (s : string) :
  (exists x, float_of_str s = Ret x) \/ float_of_str s = Raise ValueError.
Proof.
  unfold float_of_str. destruct (float_of_chars (chars s)); eauto.
Qed.

(** A string that [float] accepts is not empty, is not a lone space and
    holds neither [>] nor [<]. *)
Lemma float_of_str_plain (s : string) (x : float) :
  float_of_str s = Ret x ->
  s <> "" /\ s <> " " /\ contains ">" s = false /\ contains "<" s = false.
Proof.
  intros H. repeat split.
  - intros ->. discriminate.
  - intros ->. discriminate.
  - unfold float_of_str in H.
    destruct (float_of_chars (chars s)) eqn:E; [|discriminate].
    apply float_of_chars_plain in E. rewrite forallb_forall in E.
    apply not_true_is_false. intros Hc. apply contains_In in Hc.
    apply E in Hc. discriminate.
  - unfold float_of_str in H.
    destruct (float_of_chars (chars s)) eqn:E; [|discriminate].
    apply float_of_chars_plain in E. rewrite forallb_forall in E.
    apply not_true_is_false. intros Hc. apply contains_In in Hc.
    apply E in Hc. discriminate.
Qed.

(** *** [int] *)

Lemma int_of_float_cases (x : float) :
  match x with
  | S754_nan => int_of_float x = Raise ValueError
  | S754_infinity _ => int_of_float x = Raise OverflowError
  | _ => int_of_float x = Ret (trunc x)
  end.
Proof. destruct x; reflexivity. Qed.

(** [x == int(x)] holds exactly for the whole numbers. *)
Lemma float_eq_int_whole (x : float) (i : Z) :
  int_of_float x = Ret i -> float_eq_int x i = is_whole x.
Proof.
  destruct x as [s|s| |s m e]; simpl; try discriminate.
  - intros H; injection H as <-. reflexivity.
  - intros H; injection H as <-.
    destruct (0 <=? e) eqn:He; simpl.
    + destruct s; apply Z.eqb_eq; lia.
    + apply Z.leb_gt in He.
      assert (Hd : 0 < 2 ^ (- e)) by (apply Z.pow_pos_nonneg; lia).
      pose proof (Z.div_mod (Z.pos m) (2 ^ (- e)) ltac:(lia)) as Hdm.
      pose proof (Z.mod_pos_bound (Z.pos m) (2 ^ (- e)) Hd) as Hb.
      set (d := 2 ^ (- e)) in *. set (q := Z.pos m / d) in *.
      set (r := Z.pos m mod d) in *.
      apply eq_true_iff_eq. rewrite !Z.eqb_eq.
      destruct s; lia.
Qed.

Lemma py_int_default (d : pyval) (z : Z) :
  py_int d = Ret z -> py_eq_str d "default" = false.
Proof.
  destruct d as [t|]; simpl; [|reflexivity].
  destruct (String.eqb_spec t "default") as [->|]; [discriminate | reflexivity].
Qed.

Lemma py_int_cases (d : pyval) :
  (exists z, py_int d = Ret z) \/ py_int d = Raise ValueError
  \/ py_int d = Raise TypeError.
Proof.
  destruct d as [t|]; simpl; [|auto].
  unfold int_of_str. destruct (int_of_chars (chars t)); eauto.
Qed.

End PyFacts.

(** * The numeric display formatter *)

Module FormatFacts.
Import Py PyFacts QFT.

(** The two early returns: blank input and comparison strings. *)
Lemma format_blank (s : string) (d : pyval) :
  blank s = true -> format_number_with_decimals (PyStr s) d = Ret " ".
Proof.
  intros H. apply strip_blank in H.
  unfold format_number_with_decimals. simpl py_str. now rewrite H.
Qed.

Lemma format_comparison (s : string) (d : pyval) :
  contains ">" s || contains "<" s = true ->
  format_number_with_decimals (PyStr s) d = Ret (strip s).
Proof.
  intros H.
  rewrite <- (contains_strip ">" s), <- (contains_strip "<" s) in H
    by reflexivity.
  unfold format_number_with_decimals. simpl py_str.
  destruct (String.eqb_spec (strip s) "") as [E|_].
  { rewrite E in H. discriminate. }
  destruct (String.eqb_spec (strip s) " ") as [E|_].
  { now apply strip_not_space in E. }
  simpl. now rewrite H.
Qed.

(** Past the early returns the function is its [try] block. *)
Lemma format_numeric_branch (s : string) (d : pyval) (x : float) :
  float_of_str (strip s) = Ret x ->
  format_number_with_decimals (PyStr s) d =
    try_except [ValueError; TypeError]
      (if py_eq_str d "default" then
         bind (int_of_float x) (fun i =>
           if float_eq_int x i
           then bind (int_of_float x) (fun j => Ret (str_of_int j))
           else Ret (strip s))
       else
         try_except [ValueError]
           (bind (py_int d) (fun decimals => format_f x decimals))
           (fun _ => Ret (strip s)))
      (fun _ => Ret (strip s)).
Proof.
  intros H. destruct (float_of_str_plain _ _ H) as (H0 & H1 & H2 & H3).
  unfold format_number_with_decimals. simpl py_str.
  apply String.eqb_neq in H0, H1. rewrite H0, H1, H2, H3, H. reflexivity.
Qed.

Lemma format_not_numeric (s : string) (d : pyval) :
  blank s = false -> raises (float_of_str (strip s)) ->
  format_number_with_decimals (PyStr s) d = Ret (strip s).
Proof.
  intros Hb [e He].
  destruct (contains ">" s || contains "<" s) eqn:Hc.
  { now apply format_comparison. }
  rewrite <- (contains_strip ">" s), <- (contains_strip "<" s) in Hc
    by reflexivity.
  unfold format_number_with_decimals. simpl py_str.
  destruct (String.eqb_spec (strip s) "") as [E|_].
  { apply strip_blank in E. congruence. }
  destruct (String.eqb_spec (strip s) " ") as [E|_].
  { now apply strip_not_space in E. }
  simpl. rewrite Hc.
  destruct (float_of_str_cases (strip s)) as [[x Hx]|Hx]; [congruence|].
  now rewrite Hx.
Qed.

Lemma format_default (s : string) (x : float) :
  float_of_str (strip s) = Ret x -> is_inf x = false ->
  format_number_with_decimals (PyStr s) (PyStr "default") =
    Ret (if is_whole x then str_of_int (trunc x) else strip s).
Proof.
  intros H Hinf. rewrite (format_numeric_branch _ _ _ H). simpl py_eq_str.
  pose proof (int_of_float_cases x) as Hi.
  destruct x as [sg|sg| |sg m e]; try discriminate; rewrite Hi.
  - reflexivity.
  - reflexivity.
  - cbn [bind]. rewrite (float_eq_int_whole _ _ Hi).
    destruct (is_whole _); reflexivity.
Qed.

Lemma format_bad_setting (s : string) (d : pyval) (x : float) :
  float_of_str (strip s) = Ret x -> py_eq_str d "default" = false ->
  raises (py_int d) ->
  format_number_with_decimals (PyStr s) d = Ret (strip s).
Proof.
  intros H Hd [e He]. rewrite (format_numeric_branch _ _ _ H), Hd.
  destruct (py_int_cases d) as [[z Hz]|[Hz|Hz]]; [congruence| |];
    now rewrite Hz.
Qed.

Lemma format_negative_setting (s : string) (d : pyval) (x : float) (z : Z) :
  float_of_str (strip s) = Ret x -> py_int d = Ret z -> z < 0 ->
  format_number_with_decimals (PyStr s) d = Ret (strip s).
Proof.
  intros H Hd Hz. rewrite (format_numeric_branch _ _ _ H).
  rewrite (py_int_default _ _ Hd), Hd. cbn [bind].
  unfold format_f. apply Z.ltb_lt in Hz. now rewrite Hz.
Qed.

(** [int(num)] of an infinite [num] raises [OverflowError], which neither
    handler names. *)
Lemma format_default_infinite (s : string) (sg : bool) :
  float_of_str (strip s) = Ret (S754_infinity sg) ->
  format_number_with_decimals (PyStr s) (PyStr "default") = Raise OverflowError.
Proof. intros H. now rewrite (format_numeric_branch _ _ _ H). Qed.

(** That is the one way out of the function by an exception. *)
Lemma format_cases (v d : pyval) :
  (exists out, format_number_with_decimals v d = Ret out) \/
  (format_number_with_decimals v d = Raise OverflowError /\
   py_eq_str d "default" = true /\
   exists sg, float_of_str (strip (py_str v)) = Ret (S754_infinity sg)).
Proof.
  unfold format_number_with_decimals.
  set (t := strip (py_str v)).
  destruct (String.eqb t "" || String.eqb t " "); [left; eauto|].
  destruct (contains ">" t || contains "<" t); [left; eauto|].
  destruct (float_of_str_cases t) as [[x Hx]|Hx]; rewrite Hx;
    [|left; simpl; eauto].
  cbn [bind]. destruct (py_eq_str d "default") eqn:Hd.
  - destruct x as [sg|sg| |sg m e].
    + left. simpl. eauto.
    + right. simpl. eauto.
    + left. simpl. eauto.
    + left. pose proof (int_of_float_cases (S754_finite sg m e)) as Hi.
      cbv beta iota in Hi. rewrite Hi. cbn [bind].
      destruct (float_eq_int _ _); simpl; eauto.
  - left. destruct (py_int_cases d) as [[z Hz]|[Hz|Hz]]; rewrite Hz;
      [|simpl; eauto..].
    cbn [bind]. unfold format_f.
    destruct ((z <? 0) || (INT_MAX <? z)); simpl; eauto.
Qed.

(** Stripping comes first: the function cannot tell an input from its
    stripped form. *)
Lemma format_strip_first (s : string) (d : pyval) :
  format_number_with_decimals (PyStr s) d =
  format_number_with_decimals (PyStr (strip s)) d.
Proof.
  unfold format_number_with_decimals. simpl py_str. now rewrite strip_idem.
Qed.

End FormatFacts.

(** * The result classifier *)

Module ClassifierFacts.
Import Py PyFacts QFT.

Lemma field_float_cases (r : gmap string pyval) (k : string) :
  (exists x, field_float r k = Ret x) \/ field_float r k = Raise ValueError.
Proof.
  unfold field_float. destruct (String.eqb _ ""); [eauto|].
  apply float_of_str_cases.
Qed.

Lemma field_float_absent (r : gmap string pyval) (k : string) :
  r !! k = None -> field_float r k = Ret f_0_0.
Proof.
  intros H. unfold field_float, field_text, dict_get. rewrite H. reflexivity.
Qed.

Lemma field_float_empty (r : gmap string pyval) (k : string) :
  field_text r k = "" -> field_float r k = Ret f_0_0.
Proof. intros H. unfold field_float. now rewrite H. Qed.

Lemma calculate_comment_parsed (r : gmap string pyval) (n a b m : float) :
  field_float r "nil_result" = Ret n -> field_float r "tb1_nil" = Ret a ->
  field_float r "tb2_nil" = Ret b -> field_float r "mit_nil" = Ret m ->
  calculate_comment r = Ret (comment_of (qft_result_of r) n a b m).
Proof.
  intros Hn Ha Hb Hm. unfold calculate_comment.
  now rewrite Hn, Ha, Hb, Hm.
Qed.

Lemma calculate_comment_failed (r : gmap string pyval) (k : string) :
  In k numeric_fields -> raises (field_float r k) ->
  calculate_comment r = Ret "Error".
Proof.
  intros Hk [e He].
  assert (Hv : field_float r k = Raise ValueError).
  { destruct (field_float_cases r k) as [[x Hx]|Hx]; congruence. }
  clear He. unfold calculate_comment.
  destruct (field_float_cases r "nil_result") as [[n Hn]|Hn]; rewrite Hn;
    [|reflexivity].
  destruct (field_float_cases r "tb1_nil") as [[a Ha]|Ha]; rewrite Ha;
    [|reflexivity].
  destruct (field_float_cases r "tb2_nil") as [[b Hb]|Hb]; rewrite Hb;
    [|reflexivity].
  destruct (field_float_cases r "mit_nil") as [[m Hm]|Hm]; rewrite Hm;
    [|reflexivity].
  simpl in Hk. destruct Hk as [<-|[<-|[<-|[<-|[]]]]]; congruence.
Qed.

Lemma comment_of_cases (q : string) (n a b m : float) :
  In (comment_of q n a b m)
     [""; "WP (Both)"; "WP (TB1)"; "WP (TB2)"; "High Nil"; "Low Mit"].
Proof.
  unfold comment_of.
  repeat match goal with
         | |- context [if ?c then _ else _] => destruct c
         end; simpl; tauto.
Qed.

Lemma comment_of_not_error (q : string) (n a b m : float) :
  comment_of q n a b m <> "Error".
Proof.
  intros H. pose proof (comment_of_cases q n a b m) as Hc.
  rewrite H in Hc. simpl in Hc.
  repeat (destruct Hc as [Hc|Hc]; [discriminate|]). exact Hc.
Qed.

(** The classifier either returns the comment of its four converted fields
    or the sentinel; it raises nothing. *)
Lemma calculate_comment_cases (r : gmap string pyval) :
  (exists n a b m,
      field_float r "nil_result" = Ret n /\ field_float r "tb1_nil" = Ret a /\
      field_float r "tb2_nil" = Ret b /\ field_float r "mit_nil" = Ret m /\
      calculate_comment r = Ret (comment_of (qft_result_of r) n a b m))
  \/ ((exists k, In k numeric_fields /\ field_float r k = Raise ValueError)
      /\ calculate_comment r = Ret "Error").
Proof.
  destruct (field_float_cases r "nil_result") as [[n Hn]|Hn];
    [|right; split;
      [exists "nil_result"; split; [simpl; tauto | assumption]
      |apply (calculate_comment_failed r "nil_result");
        [simpl; tauto | now exists ValueError]]].
  destruct (field_float_cases r "tb1_nil") as [[a Ha]|Ha];
    [|right; split;
      [exists "tb1_nil"; split; [simpl; tauto | assumption]
      |apply (calculate_comment_failed r "tb1_nil");
        [simpl; tauto | now exists ValueError]]].
  destruct (field_float_cases r "tb2_nil") as [[b Hb]|Hb];
    [|right; split;
      [exists "tb2_nil"; split; [simpl; tauto | assumption]
      |apply (calculate_comment_failed r "tb2_nil");
        [simpl; tauto | now exists ValueError]]].
  destruct (field_float_cases r "mit_nil") as [[m Hm]|Hm];
    [|right; split;
      [exists "mit_nil"; split; [simpl; tauto | assumption]
      |apply (calculate_comment_failed r "mit_nil");
        [simpl; tauto | now exists ValueError]]].
  left. exists n, a, b, m. repeat split; try assumption.
  now apply calculate_comment_parsed.
Qed.

(** Deleting [>] and [<] reaches every occurrence, not the leading ones
    only. *)
Lemma remove_char_app (c : ascii) (u v : string) :
  remove_char c (u ++ v) = remove_char c u ++ remove_char c v.
Proof.
  unfold remove_char. rewrite chars_app, List.filter_app.
  rewrite <- (str_of_chars (_ ++ _)), chars_app, !chars_str_of.
  reflexivity.
Qed.

Lemma contains_remove_char (c d : ascii) (s : string) :
  contains c (remove_char d s) = contains c s && negb (Ascii.eqb c d).
Proof.
  apply eq_true_iff_eq.
  rewrite andb_true_iff, !contains_In. unfold remove_char.
  rewrite chars_str_of, List.filter_In. reflexivity.
Qed.

Lemma field_text_plain (r : gmap string pyval) (k : string) :
  contains ">" (field_text r k) = false /\
  contains "<" (field_text r k) = false.
Proof.
  unfold field_text.
  rewrite !contains_strip, !contains_remove_char by reflexivity.
  split; [apply andb_false_iff; left|];
    apply andb_false_iff; right; reflexivity.
Qed.

Lemma field_text_insert (r : gmap string pyval) (k : string) (v : pyval) :
  field_text (<[k := v]> r) k =
  strip (remove_char "<" (remove_char ">" (py_str v))).
Proof. unfold field_text, dict_get. now rewrite lookup_insert_eq. Qed.

Lemma field_float_comparison_anywhere
    (r : gmap string pyval) (k u v : string) (c : ascii) :
  c = ">"%char \/ c = "<"%char ->
  field_float (<[k := PyStr (u ++ String c v)]> r) k =
  field_float (<[k := PyStr (u ++ v)]> r) k.
Proof.
  intros Hc. unfold field_float. rewrite !field_text_insert. simpl py_str.
  replace (remove_char "<" (remove_char ">" (u ++ String c v)))
    with (remove_char "<" (remove_char ">" (u ++ v))); [reflexivity|].
  rewrite !remove_char_app. f_equal.
  destruct Hc as [->| ->]; reflexivity.
Qed.

(** Comparison of floats: [y < x] fails exactly when [x <= y] or one of the
    two is NaN. *)
Lemma SFcompare_antisym (x y : float) :
  SFcompare y x = option_map CompOpp (SFcompare x y).
Proof.
  destruct x as [s|s| |s m e], y as [s'|s'| |s' m' e']; simpl;
    try reflexivity; try (destruct s; reflexivity);
    try (destruct s'; reflexivity);
    try (destruct s, s'; reflexivity).
  assert (Hm : Pos.compare_cont Eq m' m = CompOpp (Pos.compare_cont Eq m m'))
    by (now rewrite Pos.compare_cont_antisym).
  destruct s, s'; simpl; try reflexivity;
    rewrite (Z.compare_antisym e e'), Hm; destruct (e ?= e'); simpl;
    try reflexivity;
    destruct (Pos.compare_cont Eq m m'); reflexivity.
Qed.

Lemma flt_false_iff (x y : float) :
  is_nan y = false ->
  flt y x = false <-> fle x y = true \/ is_nan x = true.
Proof.
  intros Hy. unfold flt, fle, SFltb, SFleb.
  rewrite (SFcompare_antisym x y).
  destruct (SFcompare x y) as [[]|] eqn:E; simpl.
  - split; [now left | reflexivity].
  - split; [now left | reflexivity].
  - split; [discriminate|]. intros [H|H]; [discriminate|].
    destruct x; discriminate.
  - split; [|reflexivity]. intros _. right.
    destruct x as [s|s| |s m e], y as [s'|s'| |s' m' e']; simpl in *;
      try discriminate; reflexivity.
Qed.

End ClassifierFacts.

(** * The model on known values *)

Module Examples.
Import Py QFT.

(** [float] rounds to the nearest double, ties to even. *)
Example float_tenth :
  float_of_str "0.1" = Ret (S754_finite false 7205759403792794 (-56)).
Proof. vm_compute. reflexivity. Qed.

Example float_tie_to_even :
  float_of_str "9007199254740993" = float_of_str "9007199254740992".
Proof. vm_compute. reflexivity. Qed.

Example float_overflow : float_of_str "1e999" = Ret (S754_infinity false).
Proof. vm_compute. reflexivity. Qed.

Example float_nearly_one : float_of_str "0.99999999999999999999" = Ret f_1_0.
Proof. vm_compute. reflexivity. Qed.

Example float_forms :
  float_of_str " 1_0.5e1 " = float_of_str "105" /\
  float_of_str "-InFinity" = Ret (S754_infinity true) /\
  float_of_str "nan" = Ret S754_nan /\
  float_of_str "1e" = Raise ValueError /\
  float_of_str "1__0" = Raise ValueError /\
  float_of_str "9>0" = Raise ValueError.
Proof. repeat split; vm_compute; reflexivity. Qed.

Example int_forms :
  int_of_str " +1_0 " = Ret 10 /\ int_of_str "-1" = Ret (-1) /\
  int_of_str "2.0" = Raise ValueError /\
  int_of_str "default" = Raise ValueError.
Proof. repeat split; vm_compute; reflexivity. Qed.

(** The scenarios of the specification. *)
Example format_rounds_half_even :
  format_number_with_decimals (PyStr "10.256") (PyStr "2") = Ret "10.26" /\
  format_number_with_decimals (PyStr "0.125") (PyStr "2") = Ret "0.12" /\
  format_number_with_decimals (PyStr "2.5") (PyStr "0") = Ret "2" /\
  format_number_with_decimals (PyStr "-0.001") (PyStr "2") = Ret "-0.00".
Proof. repeat split; vm_compute; reflexivity. Qed.

Example format_blank_passthrough :
  format_number_with_decimals (PyStr "  ") (PyStr "default") = Ret " ".
Proof. vm_compute. reflexivity. Qed.

(** What [float] rounds to a whole number is written as that number. *)
Example format_default_nearly_one :
  format_number_with_decimals (PyStr "0.99999999999999999999") (PyStr "default")
  = Ret "1".
Proof. vm_compute. reflexivity. Qed.

Example format_default_nan :
  format_number_with_decimals (PyStr "nan") (PyStr "default") = Ret "nan".
Proof. vm_compute. reflexivity. Qed.

Example format_none_setting :
  format_number_with_decimals (PyStr "1.5") PyNone = Ret "1.5".
Proof. vm_compute. reflexivity. Qed.

Example classify_empty_record : calculate_comment ∅ = Ret "".
Proof. vm_compute. reflexivity. Qed.

Example classify_lower_case_category :
  calculate_comment
    {[ "qft_result" := PyStr "pos*"; "tb1_nil" := PyStr ">0.4";
       "tb2_nil" := PyStr " 0.35 " ]} = Ret "WP (Both)".
Proof. vm_compute. reflexivity. Qed.

Example classify_none_field :
  calculate_comment {[ "qft_result" := PyStr "NEG"; "mit_nil" := PyNone ]}
  = Ret "Error".
Proof. vm_compute. reflexivity. Qed.

End Examples.

(** * The claims of the specification *)

Import Py PyFacts QFT FormatFacts ClassifierFacts.

(** ** The classifier *)

(** C1, as stated, fails: a non-numeric field is not counted as [0.0].  With
    [tb1_nil = "abc"] on a positive record the classifier answers ["Error"],
    while counting the field as [0.0] would give ["WP (TB2)"]. *)
Lemma graceful_degradation_refuted :
  ~ (forall r : gmap string pyval,
        calculate_comment r = Ret (Spec.graceful_comment r)).
Proof.
  intros H.
  specialize (H {[ "qft_result" := PyStr "POS"; "tb1_nil" := PyStr "abc";
                   "tb2_nil" := PyStr "0.5" ]}).
  vm_compute in H. discriminate.
Qed.

(** C1, amended: [calculate_comment] never raises; a numeric field that is
    absent, or empty once [>], [<] and the surrounding white space are gone,
    counts as [0.0]; a field that is not a number stops the classification,
    which then returns ["Error"]; and when all four fields convert the comment
    is the one computed from them. *)
Theorem calculate_comment_total_with_sentinel (r : gmap string pyval) :
  (exists c, calculate_comment r = Ret c) /\
  (forall k, r !! k = None -> field_float r k = Ret f_0_0) /\
  (forall k, field_text r k = "" -> field_float r k = Ret f_0_0) /\
  (forall k, In k numeric_fields -> raises (field_float r k) ->
             calculate_comment r = Ret "Error") /\
  ((forall k, In k numeric_fields -> ~ raises (field_float r k)) ->
   calculate_comment r = Ret (Spec.graceful_comment r)).
Proof.
  repeat split.
  - destruct (calculate_comment_cases r) as [(n & a & b & m & H)|[_ H]];
      [destruct H as (_ & _ & _ & _ & H)|]; eauto.
  - apply field_float_absent.
  - apply field_float_empty.
  - apply calculate_comment_failed.
  - intros Hall.
    destruct (calculate_comment_cases r) as [(n & a & b & m & H)|[H _]].
    + destruct H as (Hn & Ha & Hb & Hm & H). rewrite H.
      unfold Spec.graceful_comment, Spec.graceful_float.
      now rewrite Hn, Ha, Hb, Hm.
    + destruct H as (k & Hk & H). exfalso. apply (Hall k Hk).
      now exists ValueError.
Qed.

Lemma calculate_comment_total_with_sentinel_witness :
  calculate_comment
    {[ "qft_result" := PyStr "POS"; "tb1_nil" := PyStr "abc";
       "tb2_nil" := PyStr "0.5" ]} = Ret "Error".
Proof.
  apply (proj1 (proj2 (proj2 (proj2
           (calculate_comment_total_with_sentinel _)))) "tb1_nil").
  - simpl. tauto.
  - exists ValueError. vm_compute. reflexivity.
Defined.

(** C2, as stated, fails: the signs are not stripped from the front only.
    With [nil_result = "9>0"] the leading-only rule leaves text that is not a
    number, so the claim promises ["Error"]; the code reads [90.0] and
    answers ["High Nil"]. *)
Lemma leading_only_rule_refuted :
  ~ (forall (r : gmap string pyval) (k : string),
        In k numeric_fields -> raises (Spec.leading_float r k) ->
        calculate_comment r = Ret "Error").
Proof.
  intros H.
  specialize (H {[ "qft_result" := PyStr "IND"; "nil_result" := PyStr "9>0" ]}
                "nil_result").
  assert (Hr : calculate_comment
                 {[ "qft_result" := PyStr "IND"; "nil_result" := PyStr "9>0" ]}
               = Ret "High Nil") by (vm_compute; reflexivity).
  rewrite Hr in H.
  assert (E : @Ret string "High Nil" = Ret "Error").
  { apply H; [simpl; tauto | exists ValueError; vm_compute; reflexivity]. }
  discriminate.
Qed.

(** C2, amended: each of the four fields is read by deleting every [>] and
    [<], wherever it stands, and then the surrounding white space; an empty
    remainder is [0.0] and any other remainder is converted by [float]; the
    classifier returns ["Error"] exactly when one of the four conversions
    fails. *)
Theorem fields_read_without_comparison_signs (r : gmap string pyval) :
  (forall k u v c, c = ">"%char \/ c = "<"%char ->
     field_float (<[k := PyStr (u ++ String c v)]> r) k =
     field_float (<[k := PyStr (u ++ v)]> r) k) /\
  (forall k, contains ">" (field_text r k) = false /\
             contains "<" (field_text r k) = false /\
             strip (field_text r k) = field_text r k) /\
  (forall k, field_text r k = "" -> field_float r k = Ret f_0_0) /\
  (forall k, field_text r k <> "" ->
     field_float r k = float_of_str (field_text r k)) /\
  (calculate_comment r = Ret "Error" <->
   exists k, In k numeric_fields /\ raises (field_float r k)).
Proof.
  split; [|split; [|split; [|split; [|split]]]].
  - intros k u v c Hc. now apply field_float_comparison_anywhere.
  - intros k. destruct (field_text_plain r k) as [H1 H2].
    repeat split; [assumption | assumption | apply strip_idem].
  - apply field_float_empty.
  - intros k Hk. unfold field_float. apply String.eqb_neq in Hk.
    now rewrite Hk.
  - intros HE.
    destruct (calculate_comment_cases r) as [(n & a & b & m & H)|[H _]].
    + destruct H as (_ & _ & _ & _ & H). rewrite H in HE.
      injection HE as HE. now apply comment_of_not_error in HE.
    + destruct H as (k & Hk & H). exists k. split; [assumption|].
      now exists ValueError.
  - intros (k & Hk & H). now apply (calculate_comment_failed r k).
Qed.

Lemma fields_read_without_comparison_signs_witness :
  field_float (<["nil_result" := PyStr ("9" ++ String ">" "0")]> ∅) "nil_result"
  = field_float (<["nil_result" := PyStr ("9" ++ "0")]> ∅) "nil_result".
Proof.
  apply (proj1 (fields_read_without_comparison_signs ∅)
           "nil_result" "9" "0" ">"%char).
  left. reflexivity.
Defined.

(** C3: on a record whose upper-cased [qft_result] is [POS] or [POS*] and
    whose four fields convert, the comment is empty when [tb1_nil >= 1.0] or
    [tb2_nil >= 1.0]; otherwise it is ["WP (Both)"], ["WP (TB1)"],
    ["WP (TB2)"] or empty according to which of [0.35 <= tb1_nil < 1.0] and
    [0.35 <= tb2_nil < 1.0] hold. *)
Theorem positive_comment (r : gmap string pyval) (n a b m : float) :
  qft_result_of r = "POS" \/ qft_result_of r = "POS*" ->
  field_float r "nil_result" = Ret n -> field_float r "tb1_nil" = Ret a ->
  field_float r "tb2_nil" = Ret b -> field_float r "mit_nil" = Ret m ->
  calculate_comment r =
    Ret (if fle f_1_0 a || fle f_1_0 b then ""
         else
           match fle f_0_35 a && flt a f_1_0, fle f_0_35 b && flt b f_1_0 with
           | true, true => "WP (Both)"
           | true, false => "WP (TB1)"
           | false, true => "WP (TB2)"
           | false, false => ""
           end).
Proof.
  intros Hq Hn Ha Hb Hm.
  rewrite (calculate_comment_parsed r n a b m Hn Ha Hb Hm).
  unfold comment_of.
  assert (E : String.eqb (qft_result_of r) "POS"
              || String.eqb (qft_result_of r) "POS*" = true)
    by (destruct Hq as [-> | ->]; reflexivity).
  rewrite E.
  destruct (fle f_1_0 a || fle f_1_0 b); [reflexivity|].
  destruct (fle f_0_35 a && flt a f_1_0), (fle f_0_35 b && flt b f_1_0);
    reflexivity.
Qed.

Lemma positive_comment_witness :
  calculate_comment
    {[ "qft_result" := PyStr "POS"; "tb1_nil" := PyStr "0.5";
       "tb2_nil" := PyStr "0.2" ]} = Ret "WP (TB1)".
Proof.
  rewrite (positive_comment _ f_0_0 f_0_5 (literal "0.2") f_0_0).
  - vm_compute. reflexivity.
  - left. vm_compute. reflexivity.
  - vm_compute. reflexivity.
  - vm_compute. reflexivity.
  - vm_compute. reflexivity.
  - vm_compute. reflexivity.
Defined.

(** C4, as stated, fails: ["Low Mit"] does not need [nil_result <= 8.0].  With
    [nil_result = "nan"] and [mit_nil = "0.1"] on an indeterminate record
    neither [nil_result > 8.0] nor [nil_result <= 8.0] holds and the comment
    is ["Low Mit"]. *)
Lemma low_mit_without_nil_le_8 :
  ~ (forall (r : gmap string pyval) (n a b m : float),
        qft_result_of r = "IND" ->
        field_float r "nil_result" = Ret n -> field_float r "tb1_nil" = Ret a ->
        field_float r "tb2_nil" = Ret b -> field_float r "mit_nil" = Ret m ->
        calculate_comment r = Ret "Low Mit" ->
        fle n f_8_0 = true /\ flt m f_0_5 = true).
Proof.
  intros H.
  destruct (H {[ "qft_result" := PyStr "IND"; "nil_result" := PyStr "nan";
                 "mit_nil" := PyStr "0.1" ]}
              S754_nan f_0_0 f_0_0 (literal "0.1")) as [Hn _];
    try (vm_compute; reflexivity).
  vm_compute in Hn. discriminate.
Qed.

(** C4, amended: on a record whose upper-cased [qft_result] is [IND] and whose
    four fields convert, the comment is ["High Nil"] whenever
    [nil_result > 8.0], whatever [mit_nil] is; it is ["Low Mit"] exactly when
    [nil_result > 8.0] does not hold (so [nil_result <= 8.0], or [nil_result]
    is NaN) and [mit_nil < 0.5]; and it is empty otherwise. *)
Theorem indeterminate_comment (r : gmap string pyval) (n a b m : float) :
  qft_result_of r = "IND" ->
  field_float r "nil_result" = Ret n -> field_float r "tb1_nil" = Ret a ->
  field_float r "tb2_nil" = Ret b -> field_float r "mit_nil" = Ret m ->
  calculate_comment r =
    Ret (if flt f_8_0 n then "High Nil"
         else if flt m f_0_5 then "Low Mit" else "") /\
  (calculate_comment r = Ret "Low Mit" <->
   (fle n f_8_0 = true \/ is_nan n = true) /\ flt m f_0_5 = true).
Proof.
  intros Hq Hn Ha Hb Hm.
  rewrite (calculate_comment_parsed r n a b m Hn Ha Hb Hm).
  unfold comment_of. rewrite Hq. simpl String.eqb. simpl orb. cbv iota.
  split; [reflexivity|].
  rewrite <- (flt_false_iff n f_8_0 eq_refl).
  destruct (flt f_8_0 n), (flt m f_0_5); split;
    (intros [? ?] || intros ?); try discriminate; auto.
Qed.

Lemma indeterminate_comment_witness :
  calculate_comment
    {[ "qft_result" := PyStr "IND"; "nil_result" := PyStr "9.0";
       "mit_nil" := PyStr "0.1" ]} = Ret "High Nil".
Proof.
  refine (eq_trans
            (proj1 (indeterminate_comment
                      {[ "qft_result" := PyStr "IND";
                         "nil_result" := PyStr "9.0";
                         "mit_nil" := PyStr "0.1" ]}
                      (literal "9.0") f_0_0 f_0_0 (literal "0.1") _ _ _ _ _))
            _);
    vm_compute; reflexivity.
Defined.

(** C8, as stated, fails: a record of another category is not always left
    without a comment.  With [qft_result = "NEG"] and [tb1_nil = "abc"] the
    classifier answers ["Error"]. *)
Lemma other_category_with_bad_field :
  ~ (forall r : gmap string pyval,
        qft_result_of r <> "POS" -> qft_result_of r <> "POS*" ->
        qft_result_of r <> "IND" ->
        calculate_comment r = Ret "").
Proof.
  intros H.
  specialize (H {[ "qft_result" := PyStr "NEG"; "tb1_nil" := PyStr "abc" ]}).
  assert (E : calculate_comment
                {[ "qft_result" := PyStr "NEG"; "tb1_nil" := PyStr "abc" ]}
              = Ret "Error") by (vm_compute; reflexivity).
  rewrite E in H.
  assert (F : @Ret string "Error" = Ret "")
    by (apply H; vm_compute; discriminate).
  discriminate.
Qed.

(** C8, amended: on a record whose upper-cased [qft_result] is none of [POS],
    [POS*] and [IND] (so also [NEG] and every value the classifier does not
    know) and whose four fields convert, the comment is empty. *)
Theorem other_category_comment (r : gmap string pyval) (n a b m : float) :
  qft_result_of r <> "POS" -> qft_result_of r <> "POS*" ->
  qft_result_of r <> "IND" ->
  field_float r "nil_result" = Ret n -> field_float r "tb1_nil" = Ret a ->
  field_float r "tb2_nil" = Ret b -> field_float r "mit_nil" = Ret m ->
  calculate_comment r = Ret "".
Proof.
  intros H1 H2 H3 Hn Ha Hb Hm.
  rewrite (calculate_comment_parsed r n a b m Hn Ha Hb Hm).
  unfold comment_of. apply String.eqb_neq in H1, H2, H3.
  now rewrite H1, H2, H3.
Qed.

Lemma other_category_comment_witness :
  calculate_comment {[ "qft_result" := PyStr "NEG" ]} = Ret "".
Proof.
  apply (other_category_comment _ f_0_0 f_0_0 f_0_0 f_0_0);
    vm_compute; (reflexivity || discriminate).
Defined.

(** ** The formatter *)

(** C5: the claim that no exception leaves [format_value] is what the code
    sets out to do with its two handlers, and it misses one case: for an input
    that [float] reads as an infinity the [default] setting calls [int] on it,
    and the [OverflowError] reaches the caller.  Every other call of the
    formatter returns, and the classifier always returns. *)
Theorem format_infinity_raises_overflow :
  format_number_with_decimals (PyStr "1e999") (PyStr "default")
    = Raise OverflowError /\
  format_number_with_decimals (PyStr "inf") (PyStr "default")
    = Raise OverflowError /\
  (forall v d : pyval,
      (exists out, format_number_with_decimals v d = Ret out) \/
      (format_number_with_decimals v d = Raise OverflowError /\
       py_eq_str d "default" = true /\
       exists sg, float_of_str (strip (py_str v)) = Ret (S754_infinity sg))) /\
  (forall r : gmap string pyval, exists c, calculate_comment r = Ret c).
Proof.
  split; [vm_compute; reflexivity|].
  split; [vm_compute; reflexivity|].
  split; [apply format_cases|].
  intros r.
  destruct (calculate_comment_cases r) as [(n & a & b & m & H)|[_ H]];
    [destruct H as (_ & _ & _ & _ & H)|]; eauto.
Qed.

(** C6, as stated, fails: a comparison string is not always returned as it
    came.  [" >10.0"] comes back as [">10.0"]. *)
Lemma comparison_string_padded_changes :
  ~ (forall (s : string) (d : pyval),
        contains ">" s || contains "<" s = true ->
        format_number_with_decimals (PyStr s) d = Ret s).
Proof.
  intros H. specialize (H " >10.0" (PyStr "2") eq_refl).
  vm_compute in H. discriminate.
Qed.

(** C6, amended: for every input string that holds [>] or [<] and every
    decimals setting the result is the input with its leading and trailing
    white space removed and nothing else changed; so
    [format_value(">10.0", "2") == ">10.0"]. *)
Theorem comparison_string_stripped_only (s : string) (d : pyval) :
  contains ">" s || contains "<" s = true ->
  format_number_with_decimals (PyStr s) d = Ret (strip s).
Proof. apply format_comparison. Qed.

Lemma comparison_string_stripped_only_witness :
  format_number_with_decimals (PyStr ">10.0") (PyStr "2") = Ret ">10.0".
Proof.
  refine (eq_trans (comparison_string_stripped_only ">10.0" (PyStr "2") _) _);
    vm_compute; reflexivity.
Defined.

(** C7, as stated, fails: in default mode a value that is not whole is not
    always returned as it came.  [" 10.5 "] comes back as ["10.5"]. *)
Lemma default_mode_padded_changes :
  ~ (forall (s : string) (x : float),
        float_of_str s = Ret x ->
        format_number_with_decimals (PyStr s) (PyStr "default") =
          Ret (if is_whole x then str_of_int (trunc x) else s)).
Proof.
  intros H. specialize (H " 10.5 " (literal "10.5")).
  assert (E : @Ret string "10.5" = Ret " 10.5 ")
    by (apply H; vm_compute; reflexivity).
  discriminate.
Qed.

(** C7, amended: for every input whose stripped text [float] reads as a value
    that is not infinite, the [default] setting returns the integer written
    without a fraction when the value is a whole number (["10.0"] gives
    ["10"]) and the stripped input otherwise; default mode does no rounding
    beyond that of [float] itself. *)
Theorem default_mode_whole_or_stripped (s : string) (x : float) :
  float_of_str (strip s) = Ret x -> is_inf x = false ->
  format_number_with_decimals (PyStr s) (PyStr "default") =
    Ret (if is_whole x then str_of_int (trunc x) else strip s).
Proof. apply format_default. Qed.

Lemma default_mode_whole_or_stripped_witness :
  format_number_with_decimals (PyStr "10.0") (PyStr "default") = Ret "10".
Proof.
  refine (eq_trans
            (default_mode_whole_or_stripped "10.0" (literal "10.0") _ _) _);
    vm_compute; reflexivity.
Defined.

(** C9: [format_value] strips its input first, so it cannot tell an input
    from its stripped form; an input of white space only, of any length,
    gives one space; and wherever the value is handed back (comparison
    strings, text that is not a number, a setting that is not an integer,
    default mode on a value that is not whole) it is the stripped input that
    comes back. *)
Theorem format_strips_before_all (s : string) (d : pyval) :
  format_number_with_decimals (PyStr s) d =
    format_number_with_decimals (PyStr (strip s)) d /\
  (blank s = true -> format_number_with_decimals (PyStr s) d = Ret " ") /\
  (contains ">" s || contains "<" s = true ->
   format_number_with_decimals (PyStr s) d = Ret (strip s)) /\
  (blank s = false -> raises (float_of_str (strip s)) ->
   format_number_with_decimals (PyStr s) d = Ret (strip s)) /\
  (forall x, float_of_str (strip s) = Ret x ->
     py_eq_str d "default" = false -> raises (py_int d) ->
     format_number_with_decimals (PyStr s) d = Ret (strip s)) /\
  (forall x, float_of_str (strip s) = Ret x ->
     is_inf x = false -> is_whole x = false ->
     format_number_with_decimals (PyStr s) (PyStr "default") = Ret (strip s)).
Proof.
  repeat split.
  - apply format_strip_first.
  - apply format_blank.
  - apply format_comparison.
  - apply format_not_numeric.
  - intros x. apply format_bad_setting.
  - intros x Hx Hi Hw. rewrite (format_default s x Hx Hi). now rewrite Hw.
Qed.

Lemma format_strips_before_all_witness :
  format_number_with_decimals (PyStr "  ") (PyStr "default") = Ret " " /\
  format_number_with_decimals (PyStr " >10.0 ") (PyStr "2") = Ret ">10.0" /\
  format_number_with_decimals (PyStr " n/a ") (PyStr "2") = Ret "n/a" /\
  format_number_with_decimals (PyStr " 1.5 ") (PyStr "two") = Ret "1.5" /\
  format_number_with_decimals (PyStr " 10.5 ") (PyStr "default") = Ret "10.5".
Proof.
  split; [|split; [|split; [|split]]].
  - apply (proj1 (proj2 (format_strips_before_all "  " (PyStr "default")))).
    vm_compute. reflexivity.
  - refine (eq_trans
      (proj1 (proj2 (proj2 (format_strips_before_all " >10.0 " (PyStr "2"))))
         _) _); vm_compute; reflexivity.
  - refine (eq_trans
      (proj1 (proj2 (proj2 (proj2
         (format_strips_before_all " n/a " (PyStr "2"))))) _ _) _);
      try (vm_compute; reflexivity).
    exists ValueError. vm_compute. reflexivity.
  - refine (eq_trans
      (proj1 (proj2 (proj2 (proj2 (proj2
         (format_strips_before_all " 1.5 " (PyStr "two"))))))
         (literal "1.5") _ _ _) _);
      try (vm_compute; reflexivity).
    exists ValueError. vm_compute. reflexivity.
  - refine (eq_trans
      (proj2 (proj2 (proj2 (proj2 (proj2
         (format_strips_before_all " 10.5 " (PyStr "default"))))))
         (literal "10.5") _ _ _) _);
      vm_compute; reflexivity.
Defined.

(** C10: for every input that [float] reads and a setting that [int] reads as
    a negative number, [format_value] does not raise: the [ValueError] of the
    format specifier is caught by the handler of the unreadable settings and
    the stripped input is returned. *)
Theorem negative_setting_fails_open
    (s : string) (d : pyval) (x : float) (z : Z) :
  float_of_str (strip s) = Ret x -> py_int d = Ret z -> z < 0 ->
  format_f x z = Raise ValueError /\
  format_number_with_decimals (PyStr s) d = Ret (strip s).
Proof.
  intros Hx Hd Hz. split.
  - unfold format_f. apply Z.ltb_lt in Hz. now rewrite Hz.
  - now apply (format_negative_setting s d x z).
Qed.

Lemma negative_setting_fails_open_witness :
  format_number_with_decimals (PyStr "10.256") (PyStr "-1") = Ret "10.256".
Proof.
  refine (eq_trans
            (proj2 (negative_setting_fails_open "10.256" (PyStr "-1")
                      (literal "10.256") (-1) _ _ _)) _);
    vm_compute; reflexivity.
Defined.
